(** * piston_mini_client.failhandlers

    A shallow embedding of [piston_mini_client/failhandlers.py]: the
    [APIError] exception family and the fail handlers that decide what an
    HTTP response and its body turn into.

    Python objects that can be shared and mutated (the httplib2 response,
    dictionaries) live in a heap and are passed by reference; immutable
    values (None, booleans, integers, strings) are passed by value. *)

From stdpp Require Import base gmap strings list pretty.
From Stdlib Require Import ZArith Ascii.

Open Scope Z_scope.

(** ** Values *)

Definition loc := positive.

(** Immutable, hashable values: what a header of a response holds. *)
Inductive scalar :=
  | SNone
  | SBool (b : bool)
  | SInt (z : Z)
  | SStr (s : string).

(** A value is a scalar or a reference to a heap object. *)
Inductive pyval :=
  | PScalar (c : scalar)
  | PRef (l : loc).

Definition PNone : pyval := PScalar SNone.
Definition PStr (s : string) : pyval := PScalar (SStr s).

(** Heap objects: an httplib2 response (a dict from header names to header
    values, with the status code under the key 'status') and plain dicts. *)
Inductive object :=
  | OResponse (items : gmap string scalar)
  | ODict (items : gmap string pyval).

Abbreviation heap := (gmap loc object).
Abbreviation environ := (gmap string string).

(** ** The Python operations the module uses *)

(** [a == b] on scalars; a boolean is the integer 0 or 1. *)
Definition py_eq (a b : scalar) : bool :=
  match a, b with
  | SNone, SNone => true
  | SBool x, SBool y => Bool.eqb x y
  | SBool x, SInt z | SInt z, SBool x => Z.b2z x =? z
  | SInt x, SInt y => x =? y
  | SStr s, SStr t => String.eqb s t
  | _, _ => false
  end.

(** [x in l] for a list [l]. *)
Definition py_in (x : scalar) (l : list scalar) : bool :=
  existsb (py_eq x) l.

(** Truth value of a scalar, as [if x:] tests it. *)
Definition py_truth (x : scalar) : bool :=
  match x with
  | SNone => false
  | SBool b => b
  | SInt z => negb (z =? 0)
  | SStr s => negb (String.eqb s EmptyString)
  end.

(** [str(x)] of a scalar, as the [%s] conversion renders it. *)
Definition str_scalar (x : scalar) : string :=
  match x with
  | SNone => "None"
  | SBool true => "True"
  | SBool false => "False"
  | SInt z => pretty z
  | SStr s => s
  end.

(** [d.get(k)]: the value under [k], None when the key is missing. *)
Definition dict_get (d : gmap string scalar) (k : string) : scalar :=
  default SNone (d !! k).

(** [os.environ.get(k, False)]. *)
Definition environ_get (env : environ) (k : string) : scalar :=
  match env !! k with
  | Some s => SStr s
  | None => SBool false
  end.

Definition newline : string := String "010"%char EmptyString.

(** ** Exceptions *)

Inductive exc_class :=
  | APIError
  | BadRequestError
  | UnauthorizedError
  | NotFoundError
  | InternalServerErrorError.

#[global] Instance exc_class_eq_dec : EqDecision exc_class.
Proof. solve_decision. Defined.

(** The base classes written in each class statement ([Exception] lies
    outside the module and is left out). *)
Definition bases (c : exc_class) : list exc_class :=
  match c with
  | APIError => []
  | BadRequestError | UnauthorizedError
  | NotFoundError | InternalServerErrorError => [APIError]
  end.

(** Method resolution order inside the module: the class, then its bases
    (no class of the module has a base with a base of its own). *)
Definition mro (c : exc_class) : list exc_class := c :: bases c.

Definition issubclass (c parent : exc_class) : bool :=
  bool_decide (parent ∈ mro c).

(** An instance of [APIError] or of one of its subclasses: none of the
    subclasses adds a field or overrides a method. *)
Record api_error := mk_api_error {
  exc_type : exc_class;
  msg : string;
  body : pyval;
  debug : scalar
}.

Definition DEBUG_VAR : string := "PISTON_MINI_CLIENT_DEBUG".

(** [cls(msg, body=None)], run in the environment [env]. *)
Definition APIError_init (env : environ) (cls : exc_class)
    (m : string) (b : option pyval) : api_error :=
  {| exc_type := cls;
     msg := m;
     body := default PNone b;
     debug := environ_get env DEBUG_VAR |}.

Inductive exception :=
  | ApiExc (e : api_error)
  | NotImplementedError.

(** What a call of [handle] ends in. *)
Inductive outcome :=
  | Return (v : pyval)
  | Raise (e : exception).

(** ** Fail handlers *)

Inductive handler_class :=
  | BaseFailHandler
  | ExceptionFailHandler
  | NoneFailHandler
  | DictFailHandler
  | MultiExceptionFailHandler.

#[global] Instance handler_class_eq_dec : EqDecision handler_class.
Proof. solve_decision. Defined.

(** The four handlers that define [handle]. *)
Definition variants : list handler_class :=
  [ExceptionFailHandler; NoneFailHandler; DictFailHandler;
   MultiExceptionFailHandler].

(** A handler instance: its class and nothing else, since [__init__]
    stores none of its arguments. *)
Record instance := mk_instance { class_of : handler_class }.

(** [BaseFailHandler.__init__], inherited by every handler. *)
Definition BaseFailHandler_init (cls : handler_class)
    (url method body headers : pyval) : instance :=
  {| class_of := cls |}.

(** The class attribute [success_status_codes]; no subclass overrides it. *)
Definition success_status_codes (cls : handler_class) : list scalar :=
  [SStr "200"; SStr "201"; SStr "204"; SStr "304"].

(** [BaseFailHandler.was_error]. *)
Definition was_error (self : instance) (response : gmap string scalar) : bool :=
  negb (py_in (dict_get response "status")
              (success_status_codes (class_of self))).

(** The class attribute [MultiExceptionFailHandler.exceptions]. *)
Definition exceptions : gmap string exc_class :=
  {[ "400" := BadRequestError;
     "401" := UnauthorizedError;
     "404" := NotFoundError;
     "500" := InternalServerErrorError ]}.

(** [exceptions.get(status, APIError)]: the keys are strings, and a key
    that is not a string equals none of them. *)
Definition exceptions_get (status : scalar) : exc_class :=
  match status with
  | SStr s => default APIError (exceptions !! s)
  | _ => APIError
  end.

(** The response object behind a reference. *)
Definition response_at (h : heap) (r : loc) : option (gmap string scalar) :=
  match h !! r with
  | Some (OResponse d) => Some d
  | _ => None
  end.

(** A new object at an unused location. *)
Definition alloc (h : heap) (o : object) : heap * loc :=
  let l := fresh (dom h) in (<[l := o]> h, l).

(** ** Sample responses

    A small heap with one response of each kind, used to run the
    handlers on concrete inputs. *)

Definition ok_response : gmap string scalar :=
  {[ "status" := SStr "200"; "content-type" := SStr "application/json" ]}.

Definition not_found_response : gmap string scalar :=
  {[ "status" := SStr "404" ]}.

Definition unavailable_response : gmap string scalar :=
  {[ "status" := SStr "503" ]}.

Definition no_status_response : gmap string scalar :=
  {[ "content-length" := SStr "0" ]}.

Definition int_status_response : gmap string scalar :=
  {[ "status" := SInt 200 ]}.

Definition sample_heap : heap :=
  {[ 1%positive := OResponse ok_response;
     2%positive := OResponse not_found_response;
     3%positive := OResponse unavailable_response;
     4%positive := OResponse no_status_response;
     5%positive := OResponse int_status_response;
     6%positive := ODict {[ "error" := PStr "not here" ]} ]}.

(** A rendering of responses and of objects that shows the status only. *)
Definition show_response (d : gmap string scalar) : string :=
  "<" ++ str_scalar (dict_get d "status") ++ ">".

Definition show_object (h : heap) (l : loc) : string := "<object>".

Definition debug_on : environ := {[ DEBUG_VAR := "1" ]}.
Definition debug_off : environ := ∅.

Definition new_handler (cls : handler_class) : instance :=
  BaseFailHandler_init cls (PStr "http://localhost/api") (PStr "GET")
    PNone PNone.

Section Handlers.

(** [str(response)]: how Python prints the response dict. *)
Variable response_str : gmap string scalar -> string.

(** [str(o)] of the object at a location. *)
Variable object_str : heap -> loc -> string.

Definition py_str (h : heap) (v : pyval) : string :=
  match v with
  | PScalar c => str_scalar c
  | PRef l => object_str h l
  end.

(** [APIError.__str__]. *)
Definition APIError_str (h : heap) (self : api_error) : string :=
  if py_truth (debug self)
  then msg self ++ newline ++ "Received body:" ++ newline
         ++ py_str h (body self)
  else msg self.

(** ['%s: %s' % (status, response)]. *)
Definition status_message (status : scalar)
    (response : gmap string scalar) : string :=
  str_scalar status ++ ": " ++ response_str response.

Definition ExceptionFailHandler_handle (env : environ) (self : instance)
    (h : heap) (response : loc) (body : pyval) : option (heap * outcome) :=
  d ← response_at h response;
  match d !! "status" with
  | None =>
      Some (h, Raise (ApiExc
        (APIError_init env APIError "No status code in response" None)))
  | Some status =>
      if was_error self d
      then Some (h, Raise (ApiExc
             (APIError_init env APIError (status_message status d)
                (Some body))))
      else Some (h, Return body)
  end.

Definition NoneFailHandler_handle (self : instance)
    (h : heap) (response : loc) (body : pyval) : option (heap * outcome) :=
  d ← response_at h response;
  if was_error self d
  then Some (h, Return PNone)
  else Some (h, Return body).

Definition DictFailHandler_handle (self : instance)
    (h : heap) (response : loc) (body : pyval) : option (heap * outcome) :=
  d ← response_at h response;
  if was_error self d
  then
    let '(h', l) :=
      alloc h (ODict {[ "response" := PRef response; "body" := body ]}) in
    Some (h', Return (PRef l))
  else Some (h, Return body).

Definition MultiExceptionFailHandler_handle (env : environ)
    (self : instance) (h : heap) (response : loc) (body : pyval)
    : option (heap * outcome) :=
  d ← response_at h response;
  if was_error self d
  then
    let status := dict_get d "status" in
    let exception_class := exceptions_get status in
    Some (h, Raise (ApiExc
      (APIError_init env exception_class (status_message status d)
         (Some body))))
  else Some (h, Return body).

(** [self.handle(response, body)], dispatched on the class of [self].
    A handler that reads the response gives [None] when [response] is not
    a reference to a response object of the heap, and only then. *)
Definition handle (env : environ) (self : instance)
    (h : heap) (response : loc) (body : pyval) : option (heap * outcome) :=
  match class_of self with
  | BaseFailHandler => Some (h, Raise NotImplementedError)
  | ExceptionFailHandler => ExceptionFailHandler_handle env self h response body
  | NoneFailHandler => NoneFailHandler_handle self h response body
  | DictFailHandler => DictFailHandler_handle self h response body
  | MultiExceptionFailHandler =>
      MultiExceptionFailHandler_handle env self h response body
  end.


(** ** Vocabulary of the properties *)

(** The status codes that count as a success, as the strings the class
    attribute lists. *)
Definition success_strings : list string := ["200"; "201"; "204"; "304"].

(** A status value is a member of the success set. *)
Definition is_success_status (v : scalar) : Prop :=
  ∃ s, s ∈ success_strings ∧ v = SStr s.

(** The debug toggle is enabled: the variable is set to a string that
    Python takes as true, that is, to any string but the empty one. *)
Definition debug_enabled (env : environ) : Prop :=
  ∃ s, env !! DEBUG_VAR = Some s ∧ s ≠ EmptyString.

(** [sub] occurs in [s]. *)
Definition contains (sub s : string) : Prop :=
  ∃ pre post : string, s = (pre ++ sub ++ post)%string.

(** Two results are equal as Python values: the same scalar, the same
    object, or two objects with the same contents. *)
Definition py_equal (h : heap) (v1 v2 : pyval) : Prop :=
  v1 = v2 ∨
  ∃ l1 l2 o, v1 = PRef l1 ∧ v2 = PRef l2 ∧ h !! l1 = Some o ∧ h !! l2 = Some o.

(** Two calls end the same way: equal values returned, or errors of the
    same class raised with the same fields. *)
Definition outcome_equal (h : heap) (o1 o2 : outcome) : Prop :=
  match o1, o2 with
  | Return v1, Return v2 => py_equal h v1 v2
  | Raise e1, Raise e2 => e1 = e2
  | _, _ => False
  end.

(** The diagnostic dict of [DictFailHandler]. *)
Definition diagnostic (response : loc) (body : pyval) : object :=
  ODict {[ "response" := PRef response; "body" := body ]}.

(** ** Python equality and membership against strings *)

Lemma py_eq_str (v : scalar) (s : string) :
  py_eq v (SStr s) = true ↔ v = SStr s.
Proof.
  destruct v as [| b | z | t]; simpl; try (split; [discriminate | congruence]).
  rewrite String.eqb_eq. split; congruence.
Qed.

Lemma py_in_strings (v : scalar) (l : list string) :
  py_in v (SStr <$> l) = true ↔ ∃ s, s ∈ l ∧ v = SStr s.
Proof.
  unfold py_in. induction l as [| t l IH]; simpl.
  - split; [discriminate | intros (s & Hs & _); inversion Hs].
  - rewrite orb_true_iff, IH, py_eq_str. split.
    + intros [-> | (s & Hs & ->)]; eexists; split; eauto; constructor; done.
    + intros (s & Hs & ->). apply elem_of_cons in Hs as [-> | Hs]; eauto.
Qed.

Lemma success_status_codes_strings (cls : handler_class) :
  success_status_codes cls = SStr <$> success_strings.
Proof. reflexivity. Qed.

Lemma was_error_false (self : instance) (d : gmap string scalar) :
  was_error self d = false ↔ is_success_status (dict_get d "status").
Proof.
  unfold was_error, is_success_status.
  rewrite negb_false_iff, success_status_codes_strings.
  apply py_in_strings.
Qed.

Lemma was_error_true (self : instance) (d : gmap string scalar) :
  was_error self d = true ↔ ¬ is_success_status (dict_get d "status").
Proof.
  rewrite <- (was_error_false self).
  destruct (was_error self d); split; intros; try done; congruence.
Qed.

Lemma dict_get_absent (d : gmap string scalar) (k : string) :
  d !! k = None → dict_get d k = SNone.
Proof. unfold dict_get. intros ->. reflexivity. Qed.

Lemma dict_get_present (d : gmap string scalar) (k : string) (v : scalar) :
  d !! k = Some v → dict_get d k = v.
Proof. unfold dict_get. intros ->. reflexivity. Qed.

Lemma not_success_None : ¬ is_success_status SNone.
Proof. intros (s & _ & Hs). discriminate. Qed.

Lemma not_success_int (z : Z) : ¬ is_success_status (SInt z).
Proof. intros (s & _ & Hs). discriminate. Qed.

Lemma response_at_lookup (h : heap) (r : loc) (d : gmap string scalar) :
  response_at h r = Some d ↔ h !! r = Some (OResponse d).
Proof.
  unfold response_at. destruct (h !! r) as [[d' | d'] |]; split; congruence.
Qed.

Lemma alloc_fresh (h : heap) (o : object) :
  h !! (alloc h o).2 = None ∧ (alloc h o).1 = <[(alloc h o).2 := o]> h.
Proof.
  unfold alloc; simpl. split; [| reflexivity].
  apply not_elem_of_dom, is_fresh.
Qed.

Lemma alloc_extends (h : heap) (o : object) : h ⊆ (alloc h o).1.
Proof.
  destruct (alloc_fresh h o) as [Hnew ->]. by apply insert_subseteq.
Qed.

#[local] Ltac run_handle Hd :=
  unfold ExceptionFailHandler_handle, NoneFailHandler_handle,
    DictFailHandler_handle, MultiExceptionFailHandler_handle;
  rewrite ?Hd; simpl.

(** ** The failure predicate *)

(** C1, as amended: [was_error] answers true exactly when the status code is
    absent, or present and not a member of the success set '200', '201',
    '204', '304'.  A response without a status code is a failure for the
    predicate, whatever the class of the handler. *)
Theorem was_error_iff_absent_or_not_success
    (self : instance) (d : gmap string scalar) :
  was_error self d = true ↔
  d !! "status" = None ∨
  ∃ v, d !! "status" = Some v ∧ ¬ is_success_status v.
Proof.
  rewrite was_error_true. unfold dict_get.
  destruct (d !! "status") as [v |]; simpl.
  - split.
    + intros Hv. right. by exists v.
    + intros [Hd | (w & Hw & Hns)]; [discriminate | congruence].
  - split; [by left | intros _; apply not_success_None].
Qed.

(** ** Success status codes *)


(** ** ExceptionFailHandler *)

(** C3: [ExceptionFailHandler.handle] raises
    [APIError('No status code in response')], with no body, when the
    response has no status code; otherwise, when [was_error] holds, it
    raises [APIError] with the message '<status>: <response>' and the body;
    otherwise it returns the body. *)
Theorem ExceptionFailHandler_handle_spec
    (env : environ) (self : instance) (h : heap) (r : loc)
    (d : gmap string scalar) (b : pyval) :
  class_of self = ExceptionFailHandler →
  response_at h r = Some d →
  (d !! "status" = None →
     handle env self h r b =
       Some (h, Raise (ApiExc
         {| exc_type := APIError;
            msg := "No status code in response";
            body := PNone;
            debug := environ_get env DEBUG_VAR |}))) ∧
  (∀ status, d !! "status" = Some status → was_error self d = true →
     handle env self h r b =
       Some (h, Raise (ApiExc
         {| exc_type := APIError;
            msg := str_scalar status ++ ": " ++ response_str d;
            body := b;
            debug := environ_get env DEBUG_VAR |}))) ∧
  (∀ status, d !! "status" = Some status → was_error self d = false →
     handle env self h r b = Some (h, Return b)).
Proof.
  intros Hcls Hd. unfold handle. rewrite Hcls.
  unfold ExceptionFailHandler_handle. rewrite Hd. simpl.
  repeat split.
  - intros ->. reflexivity.
  - intros status -> ->. reflexivity.
  - intros status -> ->. reflexivity.
Qed.

(** ** MultiExceptionFailHandler *)

Lemma exceptions_get_other (status : scalar) :
  (∀ s, s ∈ ["400"; "401"; "404"; "500"] → status ≠ SStr s) →
  exceptions_get status = APIError.
Proof.
  intros Hother. destruct status as [| x | z | s]; try reflexivity.
  assert (Hne : ∀ k, k ∈ ["400"; "401"; "404"; "500"] → k ≠ s).
  { intros k Hk <-. by eapply Hother. }
  unfold exceptions_get, exceptions.
  rewrite !lookup_insert_ne, lookup_singleton_ne by (apply Hne; set_solver).
  reflexivity.
Qed.

Lemma issubclass_APIError (c : exc_class) : issubclass c APIError = true.
Proof. destruct c; reflexivity. Qed.

(** C4: when [was_error] holds, [MultiExceptionFailHandler.handle] raises the
    error class mapped from the status code ('400' to [BadRequestError],
    '401' to [UnauthorizedError], '404' to [NotFoundError], '500' to
    [InternalServerErrorError], any other failing status to [APIError]),
    with the message '<status>: <response>' and the body; each class is a
    subclass of [APIError] built by the same constructor, with the same
    message and body fields; when [was_error] does not hold the body is
    returned. *)
Theorem MultiExceptionFailHandler_handle_spec
    (env : environ) (self : instance) (h : heap) (r : loc)
    (d : gmap string scalar) (b : pyval) :
  class_of self = MultiExceptionFailHandler →
  response_at h r = Some d →
  (was_error self d = true →
     ∃ kind,
       handle env self h r b =
         Some (h, Raise (ApiExc
           {| exc_type := kind;
              msg := str_scalar (dict_get d "status") ++ ": " ++ response_str d;
              body := b;
              debug := environ_get env DEBUG_VAR |})) ∧
       (d !! "status" = Some (SStr "400") → kind = BadRequestError) ∧
       (d !! "status" = Some (SStr "401") → kind = UnauthorizedError) ∧
       (d !! "status" = Some (SStr "404") → kind = NotFoundError) ∧
       (d !! "status" = Some (SStr "500") → kind = InternalServerErrorError) ∧
       ((∀ s, s ∈ ["400"; "401"; "404"; "500"] →
            d !! "status" ≠ Some (SStr s)) → kind = APIError)) ∧
  (∀ c m, issubclass c APIError = true ∧
          msg (APIError_init env c m (Some b)) = m ∧
          body (APIError_init env c m (Some b)) = b) ∧
  (was_error self d = false → handle env self h r b = Some (h, Return b)).
Proof.
  intros Hcls Hd. unfold handle. rewrite Hcls. run_handle Hd.
  split; [| split].
  - intros ->. exists (exceptions_get (dict_get d "status")).
    split; [reflexivity |].
    unfold dict_get.
    repeat split; try (intros ->; reflexivity).
    intros Hother. apply exceptions_get_other.
    intros s Hs. destruct (d !! "status") as [v |] eqn:Hv; simpl.
    + intros ->. by apply (Hother s).
    + discriminate.
  - intros c m. split; [apply issubclass_APIError | split; reflexivity].
  - intros ->. reflexivity.
Qed.

(** ** NoneFailHandler *)

(** C5: [NoneFailHandler.handle] returns None when [was_error] holds and the
    body it was given otherwise; it never raises. *)
Theorem NoneFailHandler_handle_spec
    (env : environ) (self : instance) (h : heap) (r : loc)
    (d : gmap string scalar) (b : pyval) :
  class_of self = NoneFailHandler →
  response_at h r = Some d →
  (was_error self d = true → handle env self h r b = Some (h, Return PNone)) ∧
  (was_error self d = false → handle env self h r b = Some (h, Return b)) ∧
  (∃ v, handle env self h r b = Some (h, Return v)).
Proof.
  intros Hcls Hd. unfold handle. rewrite Hcls. run_handle Hd.
  destruct (was_error self d); repeat split; try discriminate; eauto.
Qed.

(** ** DictFailHandler *)

(** C6: when [was_error] holds, [DictFailHandler.handle] returns, as a value,
    a new dict with the two keys 'response' and 'body', holding the
    response and the body it was given; otherwise it returns the body; it
    never raises. *)
Theorem DictFailHandler_handle_spec
    (env : environ) (self : instance) (h : heap) (r : loc)
    (d : gmap string scalar) (b : pyval) :
  class_of self = DictFailHandler →
  response_at h r = Some d →
  (was_error self d = true →
     ∃ l, h !! l = None ∧
          handle env self h r b =
            Some (<[l := ODict {[ "response" := PRef r; "body" := b ]}]> h,
                  Return (PRef l))) ∧
  (was_error self d = false → handle env self h r b = Some (h, Return b)) ∧
  (∃ h' v, handle env self h r b = Some (h', Return v)).
Proof.
  intros Hcls Hd. unfold handle. rewrite Hcls. run_handle Hd.
  destruct (was_error self d); repeat split; try discriminate; eauto.
  intros _. eexists. split; [| reflexivity].
  apply not_elem_of_dom, is_fresh.
Qed.

(** ** A response without a status code *)

(** C7: for a response without a status entry [was_error] answers true, so
    [NoneFailHandler.handle] returns None, [DictFailHandler.handle] returns
    the diagnostic dict, and [MultiExceptionFailHandler.handle] raises the
    generic [APIError] with the message 'None: <response>' and the body. *)
Theorem absent_status_is_failure
    (env : environ) (self : instance) (h : heap) (r : loc)
    (d : gmap string scalar) (b : pyval) :
  response_at h r = Some d →
  d !! "status" = None →
  was_error self d = true ∧
  (class_of self = NoneFailHandler →
     handle env self h r b = Some (h, Return PNone)) ∧
  (class_of self = DictFailHandler →
     ∃ l, h !! l = None ∧
          handle env self h r b =
            Some (<[l := ODict {[ "response" := PRef r; "body" := b ]}]> h,
                  Return (PRef l))) ∧
  (class_of self = MultiExceptionFailHandler →
     handle env self h r b =
       Some (h, Raise (ApiExc
         {| exc_type := APIError;
            msg := "None: " ++ response_str d;
            body := b;
            debug := environ_get env DEBUG_VAR |}))).
Proof.
  intros Hd Hs.
  assert (Hwe : was_error self d = true).
  { apply was_error_true. rewrite (dict_get_absent _ _ Hs).
    apply not_success_None. }
  split; [exact Hwe |].
  repeat split; intros Hcls; unfold handle; rewrite Hcls; run_handle Hd;
    rewrite Hwe.
  - reflexivity.
  - eexists. split; [| reflexivity]. apply not_elem_of_dom, is_fresh.
  - rewrite (dict_get_absent _ _ Hs). reflexivity.
Qed.

(** ** A status code given as an integer *)

(** C8: the success codes are strings, so a status code given as an integer
    (200, 201, 204 and 304 among them) is an error for [was_error] and
    every handler takes its failure branch; a response is a success only
    when its status code is a string. *)
Theorem integer_status_is_failure
    (env : environ) (self : instance) (h : heap) (r : loc)
    (d : gmap string scalar) (b : pyval) (z : Z) :
  response_at h r = Some d →
  d !! "status" = Some (SInt z) →
  was_error self d = true ∧
  (class_of self = ExceptionFailHandler →
     handle env self h r b =
       Some (h, Raise (ApiExc
         {| exc_type := APIError;
            msg := pretty z ++ ": " ++ response_str d;
            body := b;
            debug := environ_get env DEBUG_VAR |}))) ∧
  (class_of self = NoneFailHandler →
     handle env self h r b = Some (h, Return PNone)) ∧
  (class_of self = DictFailHandler →
     ∃ l, h !! l = None ∧
          handle env self h r b =
            Some (<[l := ODict {[ "response" := PRef r; "body" := b ]}]> h,
                  Return (PRef l))) ∧
  (class_of self = MultiExceptionFailHandler →
     handle env self h r b =
       Some (h, Raise (ApiExc
         {| exc_type := APIError;
            msg := pretty z ++ ": " ++ response_str d;
            body := b;
            debug := environ_get env DEBUG_VAR |}))) ∧
  (∀ d' : gmap string scalar,
     was_error self d' = false → ∃ s, d' !! "status" = Some (SStr s)).
Proof.
  intros Hd Hs.
  assert (Hwe : was_error self d = true).
  { apply was_error_true. rewrite (dict_get_present _ _ _ Hs).
    apply not_success_int. }
  split; [exact Hwe |].
  repeat split;
    try (intros Hcls; unfold handle; rewrite Hcls; run_handle Hd;
         rewrite ?Hs, Hwe).
  - reflexivity.
  - reflexivity.
  - eexists. split; [| reflexivity]. apply not_elem_of_dom, is_fresh.
  - rewrite (dict_get_present _ _ _ Hs). reflexivity.
  - intros d' Hok. apply was_error_false in Hok as (s & _ & Hs').
    exists s. unfold dict_get in Hs'.
    destruct (d' !! "status") as [v |]; simpl in Hs'; congruence.
Qed.

(** ** No hidden state, no mutation *)

Lemma response_at_mono (h h' : heap) (r : loc) (d : gmap string scalar) :
  h ⊆ h' → response_at h r = Some d → response_at h' r = Some d.
Proof.
  intros Hsub Hd. apply response_at_lookup in Hd. apply response_at_lookup.
  by eapply lookup_weaken.
Qed.

Lemma was_error_class (i1 i2 : instance) (d : gmap string scalar) :
  was_error i1 d = was_error i2 d.
Proof. reflexivity. Qed.

(** A handler that is given a response finishes: it returns or raises. *)
Lemma handle_total (env : environ) (self : instance) (h : heap) (r : loc)
    (d : gmap string scalar) (b : pyval) :
  response_at h r = Some d → ∃ h' o, handle env self h r b = Some (h', o).
Proof.
  intros Hd. unfold handle. destruct (class_of self); run_handle Hd;
    try destruct (d !! "status"); try destruct (was_error self d); eauto.
Qed.

(** A call of [handle] only adds objects to the heap: those that were there
    stay as they were. *)
Lemma handle_extends (env : environ) (self : instance) (h h' : heap)
    (r : loc) (b : pyval) (o : outcome) :
  handle env self h r b = Some (h', o) → h ⊆ h'.
Proof.
  unfold handle.
  destruct (class_of self); [by intros [= <- _] | ..];
    destruct (response_at h r) as [d |] eqn:Hd; run_handle Hd;
    try discriminate;
    try destruct (d !! "status"); destruct (was_error self d);
    intros [= <- _]; try reflexivity.
  all: apply insert_subseteq, not_elem_of_dom, is_fresh.
Qed.

(** Calling [handle] again, on an instance of the same class and after the
    first call, ends the same way. *)
Lemma handle_again (env : environ) (i1 i2 : instance) (h h1 h2 : heap)
    (r : loc) (b : pyval) (o1 o2 : outcome) :
  class_of i1 = class_of i2 →
  handle env i1 h r b = Some (h1, o1) →
  handle env i2 h1 r b = Some (h2, o2) →
  outcome_equal h2 o1 o2.
Proof.
  intros Hcls H1 H2.
  pose proof (handle_extends _ _ _ _ _ _ _ H1) as Hsub1.
  revert H1 H2. unfold handle. rewrite <- Hcls.
  destruct (class_of i1).
  { intros [= _ <-] [= _ <-]. reflexivity. }
  all: destruct (response_at h r) as [d |] eqn:Hd;
    [| run_handle Hd; discriminate];
    pose proof (response_at_mono _ _ _ _ Hsub1 Hd) as Hd1;
    unfold ExceptionFailHandler_handle, NoneFailHandler_handle,
      DictFailHandler_handle, MultiExceptionFailHandler_handle;
    rewrite Hd, Hd1; simpl;
    rewrite (was_error_class i2 i1);
    try destruct (d !! "status"); destruct (was_error i1 d);
    intros [= <- <-]; intros [= <- <-]; simpl;
    try (left; reflexivity); try reflexivity.
  all: right; eexists _, _, _; repeat split;
    [| apply lookup_insert_eq].
  all: rewrite lookup_insert_ne; [apply lookup_insert_eq |].
  all: intros Heq;
    pose proof (is_fresh (dom (<[fresh (dom h) :=
      ODict {[ "response" := PRef r; "body" := b ]}]> h))) as Hfresh;
    apply Hfresh; rewrite Heq at 1; apply elem_of_dom;
    rewrite lookup_insert_eq; eauto.
Qed.

(** C9: the constructor stores none of its arguments, so two new instances
    of one class are the same handler; [handle] called once on each, with
    the same response and body, ends the same way both times, and every
    object that was in the heap before (the response and the body among
    them) is unchanged after each call. *)
Theorem handle_stateless_deterministic
    (env : environ) (cls : handler_class)
    (url1 method1 body1 headers1 url2 method2 body2 headers2 : pyval)
    (h : heap) (r : loc) (d : gmap string scalar) (b : pyval) :
  response_at h r = Some d →
  BaseFailHandler_init cls url1 method1 body1 headers1 =
    BaseFailHandler_init cls url2 method2 body2 headers2 ∧
  handle env (BaseFailHandler_init cls url1 method1 body1 headers1) h r b =
    handle env (BaseFailHandler_init cls url2 method2 body2 headers2) h r b ∧
  ∃ h1 o1 h2 o2,
    handle env (BaseFailHandler_init cls url1 method1 body1 headers1) h r b
      = Some (h1, o1) ∧
    handle env (BaseFailHandler_init cls url2 method2 body2 headers2) h1 r b
      = Some (h2, o2) ∧
    outcome_equal h2 o1 o2 ∧
    (∀ l o, h !! l = Some o → h1 !! l = Some o ∧ h2 !! l = Some o).
Proof.
  intros Hd. split; [reflexivity |]. split; [reflexivity |].
  destruct (handle_total env
    (BaseFailHandler_init cls url1 method1 body1 headers1) h r d b Hd)
    as (h1 & o1 & H1).
  pose proof (handle_extends _ _ _ _ _ _ _ H1) as Hsub1.
  destruct (handle_total env
    (BaseFailHandler_init cls url2 method2 body2 headers2) h1 r d b
    (response_at_mono _ _ _ _ Hsub1 Hd)) as (h2 & o2 & H2).
  pose proof (handle_extends _ _ _ _ _ _ _ H2) as Hsub2.
  exists h1, o1, h2, o2. repeat split; try assumption.
  - by eapply handle_again.
  - by eapply lookup_weaken.
  - eapply lookup_weaken; [by eapply lookup_weaken | done].
Qed.

(** ** Rendering an error *)

Lemma contains_prefix (m rest : string) : contains m (m ++ rest).
Proof. exists EmptyString, rest. reflexivity. Qed.

Lemma string_app_empty_r (t : string) : (t ++ EmptyString)%string = t.
Proof.
  induction t as [| c t IH]; [reflexivity |].
  change (String c (t ++ EmptyString)%string = String c t). by rewrite IH.
Qed.

Lemma contains_suffix (pre t : string) : contains t (pre ++ t).
Proof. exists pre, EmptyString. by rewrite string_app_empty_r. Qed.

Lemma string_app_assoc (s1 s2 s3 : string) :
  ((s1 ++ s2) ++ s3 = s1 ++ (s2 ++ s3))%string.
Proof.
  induction s1 as [| c s1 IH]; [reflexivity |].
  change (String c ((s1 ++ s2) ++ s3) = String c (s1 ++ (s2 ++ s3)))%string.
  by rewrite IH.
Qed.

Lemma debug_enabled_truth (env : environ) :
  py_truth (environ_get env DEBUG_VAR) = true ↔ debug_enabled env.
Proof.
  unfold environ_get, debug_enabled.
  destruct (env !! DEBUG_VAR) as [s |]; simpl.
  - rewrite negb_true_iff. split.
    + intros Hs. exists s. split; [reflexivity |].
      intros ->. discriminate.
    + intros (t & [= <-] & Hne). by apply String.eqb_neq.
  - split; [discriminate | intros (t & Ht & _); discriminate].
Qed.

(** C10: the debug toggle is read from the environment when the error is
    built.  When it is enabled, [str] of the error is the message, a line
    'Received body:' and the text of the body, so it contains both the
    message and the body text; when it is disabled, [str] of the error is
    exactly the message. *)
Theorem APIError_str_debug
    (env : environ) (cls : exc_class) (m : string) (b : option pyval)
    (h : heap) :
  (debug_enabled env →
     APIError_str h (APIError_init env cls m b) =
       (m ++ newline ++ "Received body:" ++ newline
          ++ py_str h (default PNone b))%string ∧
     contains m (APIError_str h (APIError_init env cls m b)) ∧
     contains (py_str h (default PNone b))
              (APIError_str h (APIError_init env cls m b))) ∧
  (¬ debug_enabled env → APIError_str h (APIError_init env cls m b) = m).
Proof.
  unfold APIError_str. simpl. split.
  - intros Hon. apply debug_enabled_truth in Hon. rewrite Hon.
    split; [reflexivity |]. split; [apply contains_prefix |].
    rewrite <- !string_app_assoc. apply contains_suffix.
  - intros Hoff.
    destruct (py_truth (environ_get env DEBUG_VAR)) eqn:Ht; [| reflexivity].
    exfalso. by apply Hoff, debug_enabled_truth.
Qed.

(** ** Further properties of the handlers *)

Lemma exceptions_lookup_Some (s : string) (c : exc_class) :
  exceptions !! s = Some c ↔
  (s = "400" ∧ c = BadRequestError) ∨ (s = "401" ∧ c = UnauthorizedError) ∨
  (s = "404" ∧ c = NotFoundError) ∨ (s = "500" ∧ c = InternalServerErrorError).
Proof.
  unfold exceptions.
  rewrite !lookup_insert_Some, lookup_singleton_Some.
  split.
  - intros [[<- <-] | [_ [[<- <-] | [_ [[<- <-] | [_ [<- <-]]]]]]]; tauto.
  - intros [[-> ->] | [[-> ->] | [[-> ->] | [-> ->]]]].
    + by left.
    + right. split; [done |]. by left.
    + right. split; [done |]. right. split; [done |]. by left.
    + right. split; [done |]. right. split; [done |]. right. by split.
Qed.

Lemma issubclass_specific (x c : exc_class) :
  c ≠ APIError → issubclass x c = true → x = c.
Proof. destruct x, c; intros Hc Hsub; try done; discriminate Hsub. Qed.

Lemma issubclass_refl (c : exc_class) : issubclass c c = true.
Proof. destruct c; reflexivity. Qed.

Lemma exceptions_get_specific (status : scalar) (c : exc_class) :
  c ≠ APIError →
  exceptions_get status = c ↔
  ∃ s, status = SStr s ∧ exceptions !! s = Some c.
Proof.
  intros Hc. unfold exceptions_get. split.
  - destruct status as [| x | z | s]; try congruence.
    destruct (exceptions !! s) as [c' |] eqn:Hs; simpl; [| congruence].
    intros ->. by exists s.
  - intros (s & -> & ->). reflexivity.
Qed.

Lemma exceptions_keys_fail (self : instance) (d : gmap string scalar)
    (s : string) (c : exc_class) :
  d !! "status" = Some (SStr s) → exceptions !! s = Some c →
  was_error self d = true.
Proof.
  intros Hd Hs. apply was_error_true. rewrite (dict_get_present _ _ _ Hd).
  intros (t & Ht & [= ->]). unfold success_strings in Ht.
  apply exceptions_lookup_Some in Hs.
  repeat (apply elem_of_cons in Ht as [-> | Ht]);
    [| | | | by apply elem_of_nil in Ht];
    destruct Hs as [[? _] | [[? _] | [[? _] | [? _]]]]; discriminate.
Qed.

Lemma insert_fresh_ne (h : heap) (o : object) : <[fresh (dom h) := o]> h ≠ h.
Proof.
  intros Heq.
  assert (Hl : <[fresh (dom h) := o]> h !! fresh (dom h) = Some o)
    by apply lookup_insert_eq.
  rewrite Heq in Hl. apply (is_fresh (dom h)), elem_of_dom. eauto.
Qed.

(** X1: [BaseFailHandler.handle] raises [NotImplementedError] whatever it is
    given, without reading the response; every other handler overrides
    [handle], so [NotImplementedError] comes from the base class only. *)
Theorem handle_not_implemented_iff_base
    (env : environ) (self : instance) (h : heap) (r : loc) (b : pyval) :
  (class_of self = BaseFailHandler →
     handle env self h r b = Some (h, Raise NotImplementedError)) ∧
  (∀ h', handle env self h r b = Some (h', Raise NotImplementedError) →
     class_of self = BaseFailHandler).
Proof.
  unfold handle. split.
  - intros ->. reflexivity.
  - intros h'. destruct (class_of self); [reflexivity | ..];
      destruct (response_at h r) as [d |] eqn:Hd; run_handle Hd;
      try discriminate;
      try destruct (d !! "status"); destruct (was_error self d);
      discriminate.
Qed.

(** X2: the result of [NoneFailHandler.handle] is None exactly when the
    response is an error or the body itself is None: a caller cannot tell a
    failure from a successful response whose body is None. *)
Theorem NoneFailHandler_None_result
    (env : environ) (self : instance) (h : heap) (r : loc)
    (d : gmap string scalar) (b : pyval) :
  class_of self = NoneFailHandler →
  response_at h r = Some d →
  handle env self h r b = Some (h, Return PNone) ↔
  was_error self d = true ∨ b = PNone.
Proof.
  intros Hcls Hd. unfold handle. rewrite Hcls. run_handle Hd.
  destruct (was_error self d); split.
  - by left.
  - reflexivity.
  - intros [= ->]. by right.
  - intros [Hwe | ->]; [discriminate | reflexivity].
Qed.

(** X3: for each of the four handlers, getting back the body given, with the
    heap as it was, means the response was a success, and only then (for
    [NoneFailHandler], provided the body is not None). *)
Theorem body_returned_iff_success
    (env : environ) (self : instance) (h : heap) (r : loc)
    (d : gmap string scalar) (b : pyval) :
  class_of self ∈ variants →
  response_at h r = Some d →
  (class_of self = NoneFailHandler → b ≠ PNone) →
  handle env self h r b = Some (h, Return b) ↔ was_error self d = false.
Proof.
  intros Hcls Hd Hb.
  assert (Habsent : d !! "status" = None → was_error self d = true).
  { intros Hs. apply was_error_true. rewrite (dict_get_absent _ _ Hs).
    apply not_success_None. }
  unfold variants in Hcls.
  repeat (apply elem_of_cons in Hcls as [Hcls | Hcls]);
    [.. | by apply elem_of_nil in Hcls];
    unfold handle; rewrite Hcls; run_handle Hd.
  - destruct (d !! "status") as [st |].
    + destruct (was_error self d); split; try done.
    + rewrite (Habsent eq_refl). split; discriminate.
  - destruct (was_error self d); split; try done.
    intros [= Heq]. by destruct (Hb Hcls).
  - destruct (was_error self d); split; try done.
    intros [= Heq _]. by destruct (insert_fresh_ne _ _ Heq).
  - destruct (was_error self d); split; try done.
Qed.

(** X4: on a response that has a status code, [ExceptionFailHandler] and
    [MultiExceptionFailHandler] decide alike: both return the body, or both
    raise, with the same message, body and debug flag; the first raises
    [APIError] itself and the second a subclass of it. *)
Theorem Exception_Multi_agree
    (env : environ) (i1 i2 : instance) (h : heap) (r : loc)
    (d : gmap string scalar) (b : pyval) (status : scalar) :
  class_of i1 = ExceptionFailHandler →
  class_of i2 = MultiExceptionFailHandler →
  response_at h r = Some d →
  d !! "status" = Some status →
  (handle env i1 h r b = Some (h, Return b) ∧
   handle env i2 h r b = Some (h, Return b)) ∨
  (∃ e1 e2,
     handle env i1 h r b = Some (h, Raise (ApiExc e1)) ∧
     handle env i2 h r b = Some (h, Raise (ApiExc e2)) ∧
     exc_type e1 = APIError ∧
     issubclass (exc_type e2) (exc_type e1) = true ∧
     msg e2 = msg e1 ∧ body e2 = body e1 ∧ debug e2 = debug e1).
Proof.
  intros Hc1 Hc2 Hd Hs. unfold handle. rewrite Hc1, Hc2. run_handle Hd.
  rewrite Hs, (was_error_class i2 i1), (dict_get_present _ _ _ Hs).
  destruct (was_error i1 d).
  - right. eexists _, _. repeat split. simpl. apply issubclass_APIError.
  - left. split; reflexivity.
Qed.

(** X5: when one of the four handlers raises, the response was an error, the
    handler is [ExceptionFailHandler] or [MultiExceptionFailHandler], the heap
    is as it was, and the error is an [APIError] or a subclass of it that
    carries the body given; the one exception is [ExceptionFailHandler] on a
    response without a status code, whose error carries no body. *)
Theorem raised_error_shape
    (env : environ) (self : instance) (h h' : heap) (r : loc)
    (d : gmap string scalar) (b : pyval) (exn : exception) :
  class_of self ∈ variants →
  response_at h r = Some d →
  handle env self h r b = Some (h', Raise exn) →
  h' = h ∧
  was_error self d = true ∧
  (class_of self = ExceptionFailHandler ∨
   class_of self = MultiExceptionFailHandler) ∧
  ∃ e, exn = ApiExc e ∧
       issubclass (exc_type e) APIError = true ∧
       debug e = environ_get env DEBUG_VAR ∧
       (body e = b ∨
        (class_of self = ExceptionFailHandler ∧ d !! "status" = None ∧
         body e = PNone)).
Proof.
  intros Hcls Hd.
  assert (Habsent : d !! "status" = None → was_error self d = true).
  { intros Hs. apply was_error_true. rewrite (dict_get_absent _ _ Hs).
    apply not_success_None. }
  unfold variants in Hcls.
  repeat (apply elem_of_cons in Hcls as [Hcls | Hcls]);
    [.. | by apply elem_of_nil in Hcls];
    unfold handle; rewrite Hcls; run_handle Hd.
  - destruct (d !! "status") as [st |] eqn:Hs.
    + destruct (was_error self d); intros [= <- <-]; repeat split; eauto.
      eexists. repeat split. by left.
    + intros [= <- <-]. repeat split; eauto.
      eexists. repeat split. right. done.
  - destruct (was_error self d); discriminate.
  - destruct (was_error self d); discriminate.
  - destruct (was_error self d); intros [= <- <-]; repeat split; eauto.
    eexists. repeat split; [apply issubclass_APIError | by left].
Qed.

(** X6: a call of [handle] leaves the heap as it was, with one exception:
    [DictFailHandler] on an error adds exactly one object, the diagnostic
    dict it returns, at a location that was unused. *)
Theorem handle_heap_effect
    (env : environ) (self : instance) (h h' : heap) (r : loc)
    (b : pyval) (o : outcome) :
  handle env self h r b = Some (h', o) →
  h' = h ∨
  (class_of self = DictFailHandler ∧
   ∃ l, h !! l = None ∧ h' = <[l := diagnostic r b]> h ∧
        o = Return (PRef l) ∧ size h' = S (size h)).
Proof.
  unfold handle.
  destruct (class_of self) eqn:Hcls; [intros [= <- _]; by left | ..];
    destruct (response_at h r) as [d |] eqn:Hd; run_handle Hd;
    try discriminate;
    try destruct (d !! "status"); destruct (was_error self d);
    intros [= <- <-]; try (by left).
  all: right; split; [reflexivity |];
    assert (Hnew : h !! fresh (dom h) = None)
      by apply not_elem_of_dom, is_fresh;
    exists (fresh (dom h)); repeat split; try assumption;
    by apply map_size_insert_None.
Qed.

(** X7: the dict that [DictFailHandler.handle] returns on an error can be
    read back: it has the two keys 'response' and 'body' and no other, the
    first holds the very response object that was passed (still unchanged
    in the heap), the second the body. *)
Theorem DictFailHandler_result_lookup
    (env : environ) (self : instance) (h h' : heap) (r l : loc)
    (d : gmap string scalar) (b : pyval) :
  class_of self = DictFailHandler →
  response_at h r = Some d →
  was_error self d = true →
  handle env self h r b = Some (h', Return (PRef l)) →
  ∃ items : gmap string pyval,
    h' !! l = Some (ODict items) ∧
    items !! "response" = Some (PRef r) ∧
    items !! "body" = Some b ∧
    dom items = ({[ "response"; "body" ]} : gset string) ∧
    response_at h' r = Some d ∧
    h !! l = None.
Proof.
  intros Hcls Hd Hwe. unfold handle. rewrite Hcls. run_handle Hd.
  rewrite Hwe. intros [= <- <-].
  assert (Hnew : h !! fresh (dom h) = None)
    by apply not_elem_of_dom, is_fresh.
  eexists. split; [apply lookup_insert_eq |].
  split; [reflexivity |]. split; [reflexivity |].
  split; [| split; [| exact Hnew]].
  - rewrite dom_insert_L, dom_singleton_L. reflexivity.
  - eapply response_at_mono; [| exact Hd]. by apply insert_subseteq.
Qed.

(** X8: only the status entry of the response matters.  For two responses
    with the same status entry, [was_error] agrees; [NoneFailHandler] gives
    the same result; a handler that raises on one raises on the other, with
    the same class, body and debug flag; and a handler that returns the body
    on one returns it on the other. *)
Theorem classification_depends_on_status
    (env : environ) (self : instance) (h : heap) (r1 r2 : loc)
    (d1 d2 : gmap string scalar) (b : pyval) :
  response_at h r1 = Some d1 →
  response_at h r2 = Some d2 →
  d1 !! "status" = d2 !! "status" →
  was_error self d1 = was_error self d2 ∧
  (class_of self = NoneFailHandler →
     handle env self h r1 b = handle env self h r2 b) ∧
  (∀ h1 e1, handle env self h r1 b = Some (h1, Raise (ApiExc e1)) →
     ∃ e2, handle env self h r2 b = Some (h1, Raise (ApiExc e2)) ∧
           exc_type e2 = exc_type e1 ∧ body e2 = body e1 ∧
           debug e2 = debug e1) ∧
  (handle env self h r1 b = Some (h, Return b) →
     handle env self h r2 b = Some (h, Return b)).
Proof.
  intros Hd1 Hd2 Hs.
  assert (Hget : dict_get d1 "status" = dict_get d2 "status").
  { unfold dict_get. by rewrite Hs. }
  assert (Hwe : was_error self d1 = was_error self d2).
  { unfold was_error. by rewrite Hget. }
  split; [exact Hwe |].
  unfold handle, ExceptionFailHandler_handle, NoneFailHandler_handle,
    DictFailHandler_handle, MultiExceptionFailHandler_handle.
  rewrite Hd1, Hd2. simpl. rewrite <- Hs, <- Hwe, <- Hget.
  split; [| split].
  - intros ->. reflexivity.
  - intros h1 e1. destruct (class_of self); try discriminate;
      try destruct (d1 !! "status"); destruct (was_error self d1);
      try discriminate; intros [= <- <-]; eexists; repeat split.
  - destruct (class_of self); try discriminate;
      try destruct (d1 !! "status"); destruct (was_error self d1);
      try discriminate; try (intros _; reflexivity).
    all: intros Heq;
      first [ injection Heq as <-; reflexivity
            | injection Heq as Hh _; by destruct (insert_fresh_ne _ _ Hh) ].
Qed.

(** X9: every status code listed in [MultiExceptionFailHandler.exceptions]
    is an error code (none of them is a success code), its class is a
    proper subclass of [APIError], and no two codes share a class: the
    class of the error tells the status code. *)
Theorem exceptions_table_sound (s : string) (c : exc_class) :
  exceptions !! s = Some c →
  (s ∉ success_strings) ∧
  c ≠ APIError ∧
  issubclass c APIError = true ∧
  issubclass APIError c = false ∧
  (∀ s', exceptions !! s' = Some c → s' = s).
Proof.
  intros Hs. apply exceptions_lookup_Some in Hs.
  assert (Hc : c ≠ APIError).
  { destruct Hs as [[_ ->] | [[_ ->] | [[_ ->] | [_ ->]]]]; discriminate. }
  split; [| split; [exact Hc | split; [apply issubclass_APIError | split]]].
  - unfold success_strings. intros Hin.
    repeat (apply elem_of_cons in Hin as [-> | Hin]);
      [| | | | by apply elem_of_nil in Hin];
      destruct Hs as [[? _] | [[? _] | [[? _] | [? _]]]]; discriminate.
  - destruct c; try reflexivity. by destruct Hc.
  - intros s' Hs'. apply exceptions_lookup_Some in Hs'.
    destruct Hs as [[-> ->] | [[-> ->] | [[-> ->] | [-> ->]]]];
      destruct Hs' as [[-> ?] | [[-> ?] | [[-> ?] | [-> ?]]]];
      try reflexivity; discriminate.
Qed.

(** X10: with [MultiExceptionFailHandler], an error that a handler for one of
    the specific classes catches (an instance of that class) is raised
    exactly when the status code is the string mapped to that class: for
    example [NotFoundError] is caught for '404' and for nothing else. *)
Theorem MultiExceptionFailHandler_catch
    (env : environ) (self : instance) (h : heap) (r : loc)
    (d : gmap string scalar) (b : pyval) (c : exc_class) :
  class_of self = MultiExceptionFailHandler →
  response_at h r = Some d →
  c ≠ APIError →
  (∃ e, handle env self h r b = Some (h, Raise (ApiExc e)) ∧
        issubclass (exc_type e) c = true) ↔
  (∃ s, d !! "status" = Some (SStr s) ∧ exceptions !! s = Some c).
Proof.
  intros Hcls Hd Hc. unfold handle. rewrite Hcls. run_handle Hd. split.
  - intros (e & Hrun & Hsub). revert Hrun.
    destruct (was_error self d); [| discriminate].
    intros [= <-]. simpl in Hsub.
    apply (issubclass_specific _ _ Hc) in Hsub.
    apply (exceptions_get_specific _ _ Hc) in Hsub as (s & Hst & Hs).
    exists s. split; [| exact Hs].
    unfold dict_get in Hst.
    destruct (d !! "status") as [v |]; simpl in Hst; congruence.
  - intros (s & Hst & Hs).
    rewrite (exceptions_keys_fail self d s c Hst Hs).
    eexists. split; [reflexivity |]. simpl.
    rewrite (dict_get_present _ _ _ Hst).
    rewrite (proj2 (exceptions_get_specific (SStr s) c Hc));
      [apply issubclass_refl | by exists s].
Qed.

(** X11: how an error raised by [ExceptionFailHandler] prints.  With the
    debug toggle disabled it prints as its message.  With the toggle
    enabled the message is followed by 'Received body:' and the body; for a
    response without a status code the body printed is 'None', whatever
    body the handler was given. *)
Theorem ExceptionFailHandler_error_rendering
    (env : environ) (self : instance) (h : heap) (r : loc)
    (d : gmap string scalar) (b : pyval) :
  class_of self = ExceptionFailHandler →
  response_at h r = Some d →
  was_error self d = true →
  ∃ e, handle env self h r b = Some (h, Raise (ApiExc e)) ∧
       (¬ debug_enabled env → APIError_str h e = msg e) ∧
       (debug_enabled env →
          APIError_str h e =
            (msg e ++ newline ++ "Received body:" ++ newline
               ++ match d !! "status" with
                  | None => "None"
                  | Some _ => py_str h b
                  end)%string).
Proof.
  intros Hcls Hd Hwe. unfold handle. rewrite Hcls. run_handle Hd.
  rewrite Hwe.
  destruct (d !! "status") as [st |]; eexists; (split; [reflexivity |]);
    unfold APIError_str; simpl; split.
  all: try (intros Hoff;
    destruct (py_truth (environ_get env DEBUG_VAR)) eqn:Ht; [| reflexivity];
    exfalso; by apply Hoff, debug_enabled_truth).
  all: intros Hon; apply debug_enabled_truth in Hon; rewrite Hon;
    reflexivity.
Qed.

End Handlers.

(** ** The properties on the sample responses *)


(** A response without a status code is an error for [was_error]. *)
Lemma was_error_iff_absent_or_not_success_witness :
  was_error (new_handler NoneFailHandler) no_status_response = true.
Proof.
  apply (was_error_iff_absent_or_not_success
           (new_handler NoneFailHandler) no_status_response).
  left. reflexivity.
Defined.

(** C1 as written fails: the response with no status code is an error for
    [was_error], in a handler other than [ExceptionFailHandler], although
    its status code is not present. *)
Lemma was_error_absent_counterexample :
  no_status_response !! "status" = None ∧
  was_error (new_handler NoneFailHandler) no_status_response = true ∧
  ¬ (was_error (new_handler NoneFailHandler) no_status_response = true ↔
     ∃ v, no_status_response !! "status" = Some v ∧ ¬ is_success_status v).
Proof.
  split; [reflexivity |]. split; [reflexivity |].
  intros [Hclaim _]. destruct (Hclaim eq_refl) as (v & Hv & _).
  discriminate Hv.
Qed.



Lemma ExceptionFailHandler_handle_spec_witness :
  handle show_response debug_off (new_handler ExceptionFailHandler)
    sample_heap 4%positive (PStr "payload")
  = Some (sample_heap, Raise (ApiExc
      {| exc_type := APIError;
         msg := "No status code in response";
         body := PNone;
         debug := SBool false |})) ∧
  handle show_response debug_off (new_handler ExceptionFailHandler)
    sample_heap 2%positive (PStr "payload")
  = Some (sample_heap, Raise (ApiExc
      {| exc_type := APIError;
         msg := "404: <404>";
         body := PStr "payload";
         debug := SBool false |})) ∧
  handle show_response debug_off (new_handler ExceptionFailHandler)
    sample_heap 1%positive (PStr "payload")
  = Some (sample_heap, Return (PStr "payload")).
Proof.
  split; [| split].
  - destruct (ExceptionFailHandler_handle_spec show_response debug_off
      (new_handler ExceptionFailHandler) sample_heap 4%positive
      no_status_response (PStr "payload") eq_refl eq_refl) as (Habsent & _).
    exact (Habsent eq_refl).
  - destruct (ExceptionFailHandler_handle_spec show_response debug_off
      (new_handler ExceptionFailHandler) sample_heap 2%positive
      not_found_response (PStr "payload") eq_refl eq_refl) as (_ & Herr & _).
    exact (Herr (SStr "404") eq_refl eq_refl).
  - destruct (ExceptionFailHandler_handle_spec show_response debug_off
      (new_handler ExceptionFailHandler) sample_heap 1%positive
      ok_response (PStr "payload") eq_refl eq_refl) as (_ & _ & Hok).
    exact (Hok (SStr "200") eq_refl eq_refl).
Defined.

Lemma MultiExceptionFailHandler_handle_spec_witness :
  handle show_response debug_off (new_handler MultiExceptionFailHandler)
    sample_heap 2%positive (PStr "payload")
  = Some (sample_heap, Raise (ApiExc
      {| exc_type := NotFoundError;
         msg := "404: <404>";
         body := PStr "payload";
         debug := SBool false |})) ∧
  handle show_response debug_off (new_handler MultiExceptionFailHandler)
    sample_heap 3%positive (PStr "payload")
  = Some (sample_heap, Raise (ApiExc
      {| exc_type := APIError;
         msg := "503: <503>";
         body := PStr "payload";
         debug := SBool false |})) ∧
  issubclass NotFoundError APIError = true ∧
  handle show_response debug_off (new_handler MultiExceptionFailHandler)
    sample_heap 1%positive (PStr "payload")
  = Some (sample_heap, Return (PStr "payload")).
Proof.
  split; [| split; [| split]].
  - destruct (MultiExceptionFailHandler_handle_spec show_response debug_off
      (new_handler MultiExceptionFailHandler) sample_heap 2%positive
      not_found_response (PStr "payload") eq_refl eq_refl) as (Herr & _).
    destruct (Herr eq_refl) as (kind & Hrun & _ & _ & H404 & _).
    rewrite Hrun, (H404 eq_refl). reflexivity.
  - destruct (MultiExceptionFailHandler_handle_spec show_response debug_off
      (new_handler MultiExceptionFailHandler) sample_heap 3%positive
      unavailable_response (PStr "payload") eq_refl eq_refl) as (Herr & _).
    destruct (Herr eq_refl) as (kind & Hrun & _ & _ & _ & _ & Hother).
    rewrite Hrun, Hother; [reflexivity |].
    intros s Hs Hlook. vm_compute in Hlook.
    repeat (apply elem_of_cons in Hs as [-> | Hs]); try discriminate Hlook.
    by apply elem_of_nil in Hs.
  - destruct (MultiExceptionFailHandler_handle_spec show_response debug_off
      (new_handler MultiExceptionFailHandler) sample_heap 1%positive
      ok_response (PStr "payload") eq_refl eq_refl) as (_ & Hsub & _).
    apply (Hsub NotFoundError EmptyString).
  - destruct (MultiExceptionFailHandler_handle_spec show_response debug_off
      (new_handler MultiExceptionFailHandler) sample_heap 1%positive
      ok_response (PStr "payload") eq_refl eq_refl) as (_ & _ & Hok).
    exact (Hok eq_refl).
Defined.

Lemma NoneFailHandler_handle_spec_witness :
  handle show_response debug_off (new_handler NoneFailHandler)
    sample_heap 3%positive (PRef 6%positive)
  = Some (sample_heap, Return PNone) ∧
  handle show_response debug_off (new_handler NoneFailHandler)
    sample_heap 1%positive (PRef 6%positive)
  = Some (sample_heap, Return (PRef 6%positive)).
Proof.
  split.
  - destruct (NoneFailHandler_handle_spec show_response debug_off
      (new_handler NoneFailHandler) sample_heap 3%positive
      unavailable_response (PRef 6%positive) eq_refl eq_refl) as (Herr & _).
    exact (Herr eq_refl).
  - destruct (NoneFailHandler_handle_spec show_response debug_off
      (new_handler NoneFailHandler) sample_heap 1%positive
      ok_response (PRef 6%positive) eq_refl eq_refl) as (_ & Hok & _).
    exact (Hok eq_refl).
Defined.

Lemma DictFailHandler_handle_spec_witness :
  (∃ l, sample_heap !! l = None ∧
        handle show_response debug_off (new_handler DictFailHandler)
          sample_heap 2%positive (PStr "payload")
        = Some (<[l := ODict {[ "response" := PRef 2%positive;
                                "body" := PStr "payload" ]}]> sample_heap,
                Return (PRef l))) ∧
  handle show_response debug_off (new_handler DictFailHandler)
    sample_heap 1%positive (PStr "payload")
  = Some (sample_heap, Return (PStr "payload")).
Proof.
  split.
  - destruct (DictFailHandler_handle_spec show_response debug_off
      (new_handler DictFailHandler) sample_heap 2%positive
      not_found_response (PStr "payload") eq_refl eq_refl) as (Herr & _).
    exact (Herr eq_refl).
  - destruct (DictFailHandler_handle_spec show_response debug_off
      (new_handler DictFailHandler) sample_heap 1%positive
      ok_response (PStr "payload") eq_refl eq_refl) as (_ & Hok & _).
    exact (Hok eq_refl).
Defined.

Lemma absent_status_is_failure_witness :
  was_error (new_handler MultiExceptionFailHandler) no_status_response = true ∧
  handle show_response debug_off (new_handler MultiExceptionFailHandler)
    sample_heap 4%positive (PStr "payload")
  = Some (sample_heap, Raise (ApiExc
      {| exc_type := APIError;
         msg := "None: <None>";
         body := PStr "payload";
         debug := SBool false |})) ∧
  handle show_response debug_off (new_handler NoneFailHandler)
    sample_heap 4%positive (PStr "payload")
  = Some (sample_heap, Return PNone).
Proof.
  split; [| split].
  - apply (absent_status_is_failure show_response debug_off
      (new_handler MultiExceptionFailHandler) sample_heap 4%positive
      no_status_response (PStr "payload") eq_refl eq_refl).
  - destruct (absent_status_is_failure show_response debug_off
      (new_handler MultiExceptionFailHandler) sample_heap 4%positive
      no_status_response (PStr "payload") eq_refl eq_refl)
      as (_ & _ & _ & Hmulti).
    exact (Hmulti eq_refl).
  - destruct (absent_status_is_failure show_response debug_off
      (new_handler NoneFailHandler) sample_heap 4%positive
      no_status_response (PStr "payload") eq_refl eq_refl)
      as (_ & Hnone & _).
    exact (Hnone eq_refl).
Defined.

Lemma integer_status_is_failure_witness :
  was_error (new_handler NoneFailHandler) int_status_response = true ∧
  handle show_response debug_off (new_handler NoneFailHandler)
    sample_heap 5%positive (PStr "payload")
  = Some (sample_heap, Return PNone) ∧
  handle show_response debug_off (new_handler ExceptionFailHandler)
    sample_heap 5%positive (PStr "payload")
  = Some (sample_heap, Raise (ApiExc
      {| exc_type := APIError;
         msg := pretty 200 ++ ": <200>";
         body := PStr "payload";
         debug := SBool false |})).
Proof.
  split; [| split].
  - apply (integer_status_is_failure show_response debug_off
      (new_handler NoneFailHandler) sample_heap 5%positive
      int_status_response (PStr "payload") 200 eq_refl eq_refl).
  - destruct (integer_status_is_failure show_response debug_off
      (new_handler NoneFailHandler) sample_heap 5%positive
      int_status_response (PStr "payload") 200 eq_refl eq_refl)
      as (_ & _ & Hnone & _).
    exact (Hnone eq_refl).
  - destruct (integer_status_is_failure show_response debug_off
      (new_handler ExceptionFailHandler) sample_heap 5%positive
      int_status_response (PStr "payload") 200 eq_refl eq_refl)
      as (_ & Hexc & _).
    exact (Hexc eq_refl).
Defined.

Lemma handle_stateless_deterministic_witness :
  ∃ h1 o1 h2 o2,
    handle show_response debug_off
      (BaseFailHandler_init DictFailHandler (PStr "http://a/") (PStr "GET")
         PNone PNone)
      sample_heap 2%positive (PRef 6%positive) = Some (h1, o1) ∧
    handle show_response debug_off
      (BaseFailHandler_init DictFailHandler (PStr "http://b/") (PStr "POST")
         (PStr "x=1") (PRef 6%positive))
      h1 2%positive (PRef 6%positive) = Some (h2, o2) ∧
    outcome_equal h2 o1 o2 ∧
    (∀ l o, sample_heap !! l = Some o → h1 !! l = Some o ∧ h2 !! l = Some o).
Proof.
  apply (handle_stateless_deterministic show_response debug_off
    DictFailHandler (PStr "http://a/") (PStr "GET") PNone PNone
    (PStr "http://b/") (PStr "POST") (PStr "x=1") (PRef 6%positive)
    sample_heap 2%positive not_found_response (PRef 6%positive) eq_refl).
Defined.

Lemma debug_enabled_on : debug_enabled debug_on.
Proof. exists "1". split; [reflexivity | discriminate]. Qed.

Lemma debug_enabled_off : ¬ debug_enabled debug_off.
Proof.
  intros (s & Hs & _). unfold debug_off in Hs.
  rewrite lookup_empty in Hs. discriminate.
Qed.

Lemma APIError_str_debug_witness :
  APIError_str show_object sample_heap
    (APIError_init debug_on NotFoundError "404: <404>" (Some (PStr "gone")))
  = ("404: <404>" ++ newline ++ "Received body:" ++ newline ++ "gone")%string ∧
  APIError_str show_object sample_heap
    (APIError_init debug_off NotFoundError "404: <404>" (Some (PStr "gone")))
  = "404: <404>".
Proof.
  split.
  - destruct (APIError_str_debug show_object debug_on NotFoundError
      "404: <404>" (Some (PStr "gone")) sample_heap) as (Hon & _).
    exact (proj1 (Hon debug_enabled_on)).
  - destruct (APIError_str_debug show_object debug_off NotFoundError
      "404: <404>" (Some (PStr "gone")) sample_heap) as (_ & Hoff).
    exact (Hoff debug_enabled_off).
Defined.

(** The variable set to the empty string reads as false in Python: the
    error is then rendered as with the toggle disabled. *)
Lemma APIError_str_empty_toggle (cls : exc_class) (m : string)
    (b : option pyval) (h : heap) :
  APIError_str show_object h
    (APIError_init {[ DEBUG_VAR := EmptyString ]} cls m b) = m.
Proof. reflexivity. Qed.

(** ** The further properties on the sample responses *)

Lemma handle_not_implemented_iff_base_witness :
  handle show_response debug_off (new_handler BaseFailHandler)
    sample_heap 1%positive (PStr "payload")
  = Some (sample_heap, Raise NotImplementedError).
Proof.
  exact (proj1 (handle_not_implemented_iff_base show_response debug_off
    (new_handler BaseFailHandler) sample_heap 1%positive (PStr "payload"))
    eq_refl).
Defined.

Lemma NoneFailHandler_None_result_witness :
  handle show_response debug_off (new_handler NoneFailHandler)
    sample_heap 1%positive PNone
  = Some (sample_heap, Return PNone) ∧
  handle show_response debug_off (new_handler NoneFailHandler)
    sample_heap 2%positive (PStr "payload")
  = Some (sample_heap, Return PNone).
Proof.
  split.
  - apply (NoneFailHandler_None_result show_response debug_off
      (new_handler NoneFailHandler) sample_heap 1%positive ok_response PNone
      eq_refl eq_refl).
    right. reflexivity.
  - apply (NoneFailHandler_None_result show_response debug_off
      (new_handler NoneFailHandler) sample_heap 2%positive
      not_found_response (PStr "payload") eq_refl eq_refl).
    left. reflexivity.
Defined.

Lemma body_returned_iff_success_witness :
  was_error (new_handler DictFailHandler) ok_response = false.
Proof.
  apply (body_returned_iff_success show_response debug_off
    (new_handler DictFailHandler) sample_heap 1%positive ok_response
    (PStr "payload")).
  - unfold variants. simpl. set_solver.
  - reflexivity.
  - intros Hcls. discriminate Hcls.
  - reflexivity.
Defined.

Lemma Exception_Multi_agree_witness :
  (handle show_response debug_off (new_handler ExceptionFailHandler)
     sample_heap 2%positive (PStr "payload")
   = Some (sample_heap, Return (PStr "payload")) ∧
   handle show_response debug_off (new_handler MultiExceptionFailHandler)
     sample_heap 2%positive (PStr "payload")
   = Some (sample_heap, Return (PStr "payload"))) ∨
  (∃ e1 e2,
     handle show_response debug_off (new_handler ExceptionFailHandler)
       sample_heap 2%positive (PStr "payload")
     = Some (sample_heap, Raise (ApiExc e1)) ∧
     handle show_response debug_off (new_handler MultiExceptionFailHandler)
       sample_heap 2%positive (PStr "payload")
     = Some (sample_heap, Raise (ApiExc e2)) ∧
     exc_type e1 = APIError ∧
     issubclass (exc_type e2) (exc_type e1) = true ∧
     msg e2 = msg e1 ∧ body e2 = body e1 ∧ debug e2 = debug e1).
Proof.
  exact (Exception_Multi_agree show_response debug_off
    (new_handler ExceptionFailHandler)
    (new_handler MultiExceptionFailHandler) sample_heap 2%positive
    not_found_response (PStr "payload") (SStr "404")
    eq_refl eq_refl eq_refl eq_refl).
Defined.

Lemma raised_error_shape_witness :
  was_error (new_handler MultiExceptionFailHandler) not_found_response = true ∧
  ∃ e,
    ApiExc {| exc_type := NotFoundError; msg := "404: <404>";
              body := PStr "payload"; debug := SBool false |} = ApiExc e ∧
    issubclass (exc_type e) APIError = true.
Proof.
  destruct (raised_error_shape show_response debug_off
    (new_handler MultiExceptionFailHandler) sample_heap sample_heap
    2%positive not_found_response (PStr "payload")
    (ApiExc {| exc_type := NotFoundError; msg := "404: <404>";
               body := PStr "payload"; debug := SBool false |}))
    as (_ & Hwe & _ & e & He & Hsub & _).
  - unfold variants. simpl. set_solver.
  - reflexivity.
  - reflexivity.
  - split; [exact Hwe |]. exists e. by split.
Defined.

Lemma handle_heap_effect_witness :
  <[fresh (dom sample_heap) := diagnostic 2%positive (PStr "payload")]>
    sample_heap = sample_heap ∨
  (class_of (new_handler DictFailHandler) = DictFailHandler ∧
   ∃ l, sample_heap !! l = None ∧
        <[fresh (dom sample_heap) := diagnostic 2%positive (PStr "payload")]>
          sample_heap
        = <[l := diagnostic 2%positive (PStr "payload")]> sample_heap ∧
        Return (PRef (fresh (dom sample_heap))) = Return (PRef l) ∧
        size (<[fresh (dom sample_heap) :=
                  diagnostic 2%positive (PStr "payload")]> sample_heap)
        = S (size sample_heap)).
Proof.
  exact (handle_heap_effect show_response debug_off
    (new_handler DictFailHandler) sample_heap
    (<[fresh (dom sample_heap) := diagnostic 2%positive (PStr "payload")]>
       sample_heap)
    2%positive (PStr "payload") (Return (PRef (fresh (dom sample_heap))))
    eq_refl).
Defined.

Lemma DictFailHandler_result_lookup_witness :
  ∃ items : gmap string pyval,
    <[fresh (dom sample_heap) := diagnostic 2%positive (PStr "payload")]>
      sample_heap !! fresh (dom sample_heap) = Some (ODict items) ∧
    items !! "response" = Some (PRef 2%positive) ∧
    items !! "body" = Some (PStr "payload") ∧
    dom items = ({[ "response"; "body" ]} : gset string) ∧
    response_at
      (<[fresh (dom sample_heap) := diagnostic 2%positive (PStr "payload")]>
         sample_heap) 2%positive = Some not_found_response ∧
    sample_heap !! fresh (dom sample_heap) = None.
Proof.
  exact (DictFailHandler_result_lookup show_response debug_off
    (new_handler DictFailHandler) sample_heap
    (<[fresh (dom sample_heap) := diagnostic 2%positive (PStr "payload")]>
       sample_heap)
    2%positive (fresh (dom sample_heap)) not_found_response (PStr "payload")
    eq_refl eq_refl eq_refl eq_refl).
Defined.

Lemma classification_depends_on_status_witness :
  was_error (new_handler NoneFailHandler) not_found_response
  = was_error (new_handler NoneFailHandler)
      (<["server" := SStr "nginx"]> not_found_response).
Proof.
  apply (classification_depends_on_status show_response debug_off
    (new_handler NoneFailHandler)
    (<[7%positive :=
         OResponse (<["server" := SStr "nginx"]> not_found_response)]>
       sample_heap)
    2%positive 7%positive not_found_response
    (<["server" := SStr "nginx"]> not_found_response) (PStr "payload")).
  - reflexivity.
  - reflexivity.
  - reflexivity.
Defined.

Lemma exceptions_table_sound_witness :
  ("404" ∉ success_strings) ∧ NotFoundError ≠ APIError.
Proof.
  destruct (exceptions_table_sound "404" NotFoundError eq_refl)
    as (Hfail & Hne & _).
  by split.
Defined.

Lemma MultiExceptionFailHandler_catch_witness :
  ∃ e,
    handle show_response debug_off (new_handler MultiExceptionFailHandler)
      sample_heap 2%positive (PStr "payload")
    = Some (sample_heap, Raise (ApiExc e)) ∧
    issubclass (exc_type e) NotFoundError = true.
Proof.
  apply (MultiExceptionFailHandler_catch show_response debug_off
    (new_handler MultiExceptionFailHandler) sample_heap 2%positive
    not_found_response (PStr "payload") NotFoundError eq_refl eq_refl).
  - discriminate.
  - exists "404". split; reflexivity.
Defined.

Lemma ExceptionFailHandler_error_rendering_witness :
  ∃ e,
    handle show_response debug_on (new_handler ExceptionFailHandler)
      sample_heap 4%positive (PStr "payload")
    = Some (sample_heap, Raise (ApiExc e)) ∧
    APIError_str show_object sample_heap e =
      (msg e ++ newline ++ "Received body:" ++ newline ++ "None")%string.
Proof.
  destruct (ExceptionFailHandler_error_rendering show_response show_object
    debug_on (new_handler ExceptionFailHandler) sample_heap 4%positive
    no_status_response (PStr "payload") eq_refl eq_refl eq_refl)
    as (e & Hrun & _ & Hon).
  exists e. split; [exact Hrun |]. exact (Hon debug_enabled_on).
Defined.
